(** * The Cython build hook of [bt] (hatch_build.py)

    A shallow embedding of [CustomBuildHook.initialize] and of the parts of
    the Python runtime it calls ([print], [subprocess.run], [os.path.join],
    [os.path.exists]), over an explicit world: a file system, the programs
    that can be launched, the interpreter's heap and the trace of operations
    the hook performs. *)

From stdpp Require Import gmap strings list pretty.
From Stdlib Require Import ZArith Ascii String.

Local Open Scope string_scope.
Local Open Scope Z_scope.

(** ** Strings, the way the runtime uses them *)

Module Str.

(** [s.startswith(p)] *)
Fixpoint startswith (s p : string) {struct p} : bool :=
  match p with
  | EmptyString => true
  | String b p' =>
      match s with
      | EmptyString => false
      | String a s' => Ascii.eqb a b && startswith s' p'
      end
  end.

(** [s.endswith(c)] for a one-character [c]. *)
Fixpoint endswith_char (s : string) (c : ascii) : bool :=
  match s with
  | EmptyString => false
  | String a EmptyString => Ascii.eqb a c
  | String _ rest => endswith_char rest c
  end.

(** [not s] on a string: true for the empty string only. *)
Definition is_empty (s : string) : bool :=
  match s with EmptyString => true | String _ _ => false end.

(** [s.split(c)]: the fields between occurrences of [c]; never empty. *)
Fixpoint split (c : ascii) (s : string) : list string :=
  match s with
  | EmptyString => [EmptyString]
  | String a rest =>
      if Ascii.eqb a c then EmptyString :: split c rest
      else match split c rest with
           | [] => [String a EmptyString]
           | x :: xs => String a x :: xs
           end
  end.

(** Characters stand for the code points 0 to 255. *)
Definition squote : ascii := "039"%char.
Definition dquote : ascii := "034"%char.
Definition backslash : ascii := "092"%char.

Fixpoint contains (c : ascii) (s : string) : bool :=
  match s with
  | EmptyString => false
  | String a rest => Ascii.eqb a c || contains c rest
  end.

(** The digit of [n < 16] in lower-case hexadecimal. *)
Definition hexdigit (n : nat) : ascii :=
  match String.get n "0123456789abcdef" with
  | Some c => c
  | None => "0"%char
  end.

(** [\xhh] *)
Definition hex_escape (c : ascii) : string :=
  let n := nat_of_ascii c in
  String backslash
    (String "x" (String (hexdigit (n / 16)) (String (hexdigit (n mod 16))
                                                EmptyString)))%nat.

(** [str.isprintable] on one code point above ASCII and below 256: the
    second block of control characters, the no-break space and the soft
    hyphen are not printable. *)
Definition printable_latin1 (n : nat) : bool :=
  (negb (n <=? 160) && negb (n =? 173))%nat.

(** How [repr] writes one character between quotes [quote]. *)
Definition repr_char (quote : ascii) (c : ascii) : string :=
  let n := nat_of_ascii c in
  if Ascii.eqb c quote || Ascii.eqb c backslash
  then String backslash (String c EmptyString)
  else if (n =? 9)%nat then String backslash "t"
  else if (n =? 10)%nat then String backslash "n"
  else if (n =? 13)%nat then String backslash "r"
  else if ((n <? 32) || (n =? 127))%nat then hex_escape c
  else if (n <? 127)%nat then String c EmptyString
  else if printable_latin1 n then String c EmptyString
  else hex_escape c.

Fixpoint repr_body (quote : ascii) (s : string) : string :=
  match s with
  | EmptyString => EmptyString
  | String c rest => repr_char quote c +:+ repr_body quote rest
  end.

(** [repr(s)]: single quotes, unless the string holds a single quote and no
    double quote; the quote in use and the backslash are escaped, control
    and unprintable characters are written as escapes. *)
Definition repr (s : string) : string :=
  let quote :=
    if contains squote s && negb (contains dquote s) then dquote
    else squote in
  String quote (repr_body quote s +:+ String quote EmptyString).

(** [", ".join(l)] *)
Fixpoint join_comma (l : list string) : string :=
  match l with
  | [] => EmptyString
  | [x] => x
  | x :: rest => x +:+ ", " +:+ join_comma rest
  end.

(** [str(l)] of a list of strings. *)
Definition repr_list (l : list string) : string :=
  "[" +:+ join_comma (map repr l) +:+ "]".

End Str.

(** ** [os.path] on POSIX *)

Module PosixPath.

Definition sep : string := "/".
Definition sep_char : ascii := "/"%char.

(** One round of the loop of [posixpath.join]:
    [if b.startswith(sep): path = b
     elif not path or path.endswith(sep): path += b
     else: path += sep + b] *)
Definition join_step (path b : string) : string :=
  if Str.startswith b sep then b
  else if Str.is_empty path || Str.endswith_char path sep_char
       then path +:+ b
       else path +:+ sep +:+ b.

(** [os.path.join(a, *p)] *)
Definition join (a : string) (p : list string) : string :=
  fold_left join_step p a.

Definition isabs (p : string) : bool := Str.startswith p sep.

(** The components the kernel walks when it resolves [p]. *)
Definition components (p : string) : list string := Str.split sep_char p.

End PosixPath.

(** ** The file system *)

Module Fs.

Inductive node : Type :=
| File (content : string)
| Dir.

Inductive errno : Type := ENOENT | ENOTDIR | EACCES.

(** Absolute, canonical names: the list of directory entries from [/]. *)
Abbreviation name := (list string).
Abbreviation filesystem := (gmap (list string) node).

(** One step of path resolution from directory [cur]. *)
Definition enter (cur : name) (c : string) : name :=
  if decide (c = EmptyString) then cur
  else if decide (c = ".") then cur
  else if decide (c = "..") then removelast cur
  else cur ++ [c].

(** Walking the components of a path: every component is looked up in a
    directory, so the place reached so far has to be one. *)
Fixpoint walk (fs : filesystem) (cur : name) (cs : list string)
  : errno + name :=
  match cs with
  | [] => inr cur
  | c :: rest =>
      match fs !! cur with
      | None => inl ENOENT
      | Some (File _) => inl ENOTDIR
      | Some Dir => walk fs (enter cur c) rest
      end
  end.

(** Resolution of a path name by a process whose working directory is
    [cwd]: the empty path names nothing. *)
Definition namei (fs : filesystem) (cwd : name) (p : string)
  : errno + name :=
  if Str.is_empty p then inl ENOENT
  else walk fs (if PosixPath.isabs p then [] else cwd)
            (PosixPath.components p).

(** [stat(2)] *)
Definition stat (fs : filesystem) (cwd : name) (p : string)
  : errno + node :=
  match namei fs cwd p with
  | inl e => inl e
  | inr q => match fs !! q with
             | None => inl ENOENT
             | Some n => inr n
             end
  end.

(** [chdir(2)]: the directory the path names, when it names one. *)
Definition chdir (fs : filesystem) (cwd : name) (p : string)
  : errno + name :=
  match namei fs cwd p with
  | inl e => inl e
  | inr q => match fs !! q with
             | None => inl ENOENT
             | Some (File _) => inl ENOTDIR
             | Some Dir => inr q
             end
  end.

End Fs.

Import Fs.

(** ** Exceptions *)

Inductive exn_class : Type :=
| ClsBaseException | ClsException | ClsOSError | ClsSubprocessError
| ClsLookupError
| ClsCalledProcessError | ClsFileNotFoundError | ClsPermissionError
| ClsNotADirectoryError | ClsIndexError | ClsRuntimeError.

Global Instance exn_class_eq_dec : EqDecision exn_class.
Proof. solve_decision. Defined.

Inductive exn : Type :=
| CalledProcessError (returncode : Z) (cmd : list string)
| FileNotFoundError (filename : string)
| PermissionError (filename : string)
| NotADirectoryError (filename : string)
| IndexError
| RuntimeError (msg : string).

Definition class_of (e : exn) : exn_class :=
  match e with
  | CalledProcessError _ _ => ClsCalledProcessError
  | FileNotFoundError _ => ClsFileNotFoundError
  | PermissionError _ => ClsPermissionError
  | NotADirectoryError _ => ClsNotADirectoryError
  | IndexError => ClsIndexError
  | RuntimeError _ => ClsRuntimeError
  end.

(** The classes an exception class inherits from, itself first. *)
Definition mro (c : exn_class) : list exn_class :=
  match c with
  | ClsBaseException => [ClsBaseException]
  | ClsException => [ClsException; ClsBaseException]
  | ClsOSError => [ClsOSError; ClsException; ClsBaseException]
  | ClsSubprocessError =>
      [ClsSubprocessError; ClsException; ClsBaseException]
  | ClsLookupError => [ClsLookupError; ClsException; ClsBaseException]
  | ClsCalledProcessError =>
      [ClsCalledProcessError; ClsSubprocessError; ClsException;
       ClsBaseException]
  | ClsFileNotFoundError =>
      [ClsFileNotFoundError; ClsOSError; ClsException; ClsBaseException]
  | ClsPermissionError =>
      [ClsPermissionError; ClsOSError; ClsException; ClsBaseException]
  | ClsNotADirectoryError =>
      [ClsNotADirectoryError; ClsOSError; ClsException; ClsBaseException]
  | ClsIndexError =>
      [ClsIndexError; ClsLookupError; ClsException; ClsBaseException]
  | ClsRuntimeError => [ClsRuntimeError; ClsException; ClsBaseException]
  end.

(** [isinstance(e, c)] *)
Definition isinstance (e : exn) (c : exn_class) : bool :=
  bool_decide (c ∈ mro (class_of e)).

(** [except (c1, ..., cn)]: does the clause take [e]? *)
Definition handles (cs : list exn_class) (e : exn) : bool :=
  existsb (isinstance e) cs.

(** The names [signal.Signals] gives to signal numbers on Linux. *)
Definition signal_names : list (Z * string) :=
  [(1, "SIGHUP"); (2, "SIGINT"); (3, "SIGQUIT"); (4, "SIGILL");
   (5, "SIGTRAP"); (6, "SIGABRT"); (7, "SIGBUS"); (8, "SIGFPE");
   (9, "SIGKILL"); (10, "SIGUSR1"); (11, "SIGSEGV"); (12, "SIGUSR2");
   (13, "SIGPIPE"); (14, "SIGALRM"); (15, "SIGTERM"); (16, "SIGSTKFLT");
   (17, "SIGCHLD"); (18, "SIGCONT"); (19, "SIGSTOP"); (20, "SIGTSTP");
   (21, "SIGTTIN"); (22, "SIGTTOU"); (23, "SIGURG"); (24, "SIGXCPU");
   (25, "SIGXFSZ"); (26, "SIGVTALRM"); (27, "SIGPROF"); (28, "SIGWINCH");
   (29, "SIGIO"); (30, "SIGPWR"); (31, "SIGSYS"); (34, "SIGRTMIN");
   (64, "SIGRTMAX")].

Fixpoint assoc_Z (k : Z) (l : list (Z * string)) : option string :=
  match l with
  | [] => None
  | (k', v) :: rest => if Z.eqb k k' then Some v else assoc_Z k rest
  end.

(** [str(e)], as the f-string of the handler renders the exception. *)
Definition str_exn (e : exn) : string :=
  match e with
  | CalledProcessError rc cmd =>
      if rc <? 0 then
        match assoc_Z (- rc) signal_names with
        | Some nm =>
            "Command '" +:+ Str.repr_list cmd +:+ "' died with <Signals."
              +:+ nm +:+ ": " +:+ pretty (- rc) +:+ ">."
        | None =>
            "Command '" +:+ Str.repr_list cmd
              +:+ "' died with unknown signal " +:+ pretty (- rc) +:+ "."
        end
      else
        "Command '" +:+ Str.repr_list cmd
          +:+ "' returned non-zero exit status " +:+ pretty rc +:+ "."
  | FileNotFoundError f =>
      "[Errno 2] No such file or directory: " +:+ Str.repr f
  | PermissionError f => "[Errno 13] Permission denied: " +:+ Str.repr f
  | NotADirectoryError f => "[Errno 20] Not a directory: " +:+ Str.repr f
  | IndexError => "list index out of range"
  | RuntimeError msg => msg
  end.

(** ** The world the hook runs in *)

(** An external program: from its argument vector and working directory it
    transforms the file system and exits with a status (negative when a
    signal killed it, as [subprocess] reports it). Whatever else a program
    reads (its environment, the time) is held fixed: a world gives each
    name one behaviour. *)
Definition program : Type := list string → name → filesystem → filesystem * Z.

(** What launching an executable by name comes to. *)
Inductive launch : Type :=
| NotFound
| NotExecutable
| Installed (run : program).

(** Values kept in [build_data]. *)
Inductive pyval : Type :=
| PyBool (b : bool)
| PyStr (s : string)
| PyList (l : list string).

Abbreviation loc := nat.

(** What the hook does, in order. *)
Inductive event : Type :=
| EvPrint (line : string)
| EvRun (args : list string) (check : bool) (cwd : string)
| EvExists (path : string).

Record world : Type := World {
  fs : gmap (list string) node;       (* the disk *)
  cwd : list string;                  (* working directory of the build *)
  programs : string → launch;         (* what PATH resolves a name to *)
  heap : gmap nat (gmap string pyval);(* dictionaries of the interpreter *)
  trace : list event                  (* operations performed so far *)
}.

Definition set_fs (f : filesystem) (w : world) : world :=
  {| fs := f; cwd := cwd w; programs := programs w; heap := heap w;
     trace := trace w |}.

Definition log (e : event) (w : world) : world :=
  {| fs := fs w; cwd := cwd w; programs := programs w; heap := heap w;
     trace := trace w ++ [e] |}.

(** The lines on standard output. *)
Definition stdout (w : world) : list string :=
  omap (λ e, match e with EvPrint l => Some l | _ => None end) (trace w).

(** ** Computations that change the world and may raise *)

Inductive result (A : Type) : Type :=
| Ok (a : A)
| Raise (e : exn).
Arguments Ok {A} a.
Arguments Raise {A} e.

Definition M (A : Type) : Type := world → result A * world.

Definition ret {A} (a : A) : M A := λ w, (Ok a, w).

Definition bind {A B} (m : M A) (k : A → M B) : M B :=
  λ w, match m w with
       | (Ok a, w') => k a w'
       | (Raise e, w') => (Raise e, w')
       end.

Definition raise {A} (e : exn) : M A := λ w, (Raise e, w).

(** [try: body except cs as e: handler e] *)
Definition try_except {A} (body : M A) (cs : list exn_class)
    (handler : exn → M A) : M A :=
  λ w, match body w with
       | (Ok a, w') => (Ok a, w')
       | (Raise e, w') =>
           if handles cs e then handler e w' else (Raise e, w')
       end.

Global Instance M_ret : MRet M := @ret.
Global Instance M_bind : MBind M := λ A B k m, bind m k.

(** [print(line)] *)
Definition print (line : string) : M unit :=
  λ w, (Ok tt, log (EvPrint line) w).

(** [os.path.exists(p)]: whether [os.stat(p)] succeeds. *)
Definition path_exists (f : filesystem) (wd : name) (p : string) : bool :=
  match stat f wd p with
  | inr _ => true
  | inl _ => false
  end.

Definition os_path_exists (p : string) : M bool :=
  λ w, (Ok (path_exists (fs w) (cwd w) p), log (EvExists p) w).

(** How starting a child process ends: the operating system refuses
    (with the file name it blames), or the child runs and exits. *)
Inductive spawned : Type :=
| SpawnError (e : errno) (filename : string)
| Exited (rc : Z).

(** Fork, enter [dir], execute [exe] with [args], wait: the child changes
    directory before it looks for the executable. *)
Definition exec (ps : string → launch) (wd : name) (exe : string)
    (args : list string) (dir : string) (f : filesystem)
  : spawned * filesystem :=
  match chdir f wd dir with
  | inl e => (SpawnError e dir, f)
  | inr d =>
      match ps exe with
      | NotFound => (SpawnError ENOENT exe, f)
      | NotExecutable => (SpawnError EACCES exe, f)
      | Installed run => let '(f', rc) := run args d f in (Exited rc, f')
      end
  end.

Definition popen (exe : string) (args : list string) (dir : string)
  : world → spawned * world :=
  λ w, let '(s, f') := exec (programs w) (cwd w) exe args dir (fs w) in
       (s, set_fs f' w).

(** The subclass of [OSError] that an error number is raised as. *)
Definition oserror (e : errno) (filename : string) : exn :=
  match e with
  | ENOENT => FileNotFoundError filename
  | ENOTDIR => NotADirectoryError filename
  | EACCES => PermissionError filename
  end.

Record CompletedProcess : Type := {
  cp_args : list string;
  cp_returncode : Z
}.

(** [subprocess.run(args, check=check, cwd=dir)]: with [check], a non-zero
    status raises [CalledProcessError]. *)
Definition subprocess_run (args : list string) (check : bool) (dir : string)
  : M CompletedProcess :=
  λ w0,
    let w := log (EvRun args check dir) w0 in
    match args with
    | [] => (Raise IndexError, w)
    | exe :: _ =>
        match popen exe args dir w with
        | (SpawnError e filename, w') => (Raise (oserror e filename), w')
        | (Exited rc, w') =>
            if check && negb (rc =? 0)
            then (Raise (CalledProcessError rc args), w')
            else (Ok {| cp_args := args; cp_returncode := rc |}, w')
        end
    end.

(** ** The hook *)

(** Of [BuildHookInterface], the hook reads the project root only. *)
Record CustomBuildHook : Type := { root : string }.

Definition fatal_message : string :=
  "Cython compilation failed and no pre-compiled bt/core.c found. "
  +:+ "Please install Cython: pip install cython".

Definition cython_args : list string :=
  ["cython"; "bt/core.py"; "-o"; "bt/core.c"].

(** [CustomBuildHook.initialize(self, version, build_data)] *)
Definition initialize (self : CustomBuildHook) (version : string)
    (build_data : loc) : M unit :=
  try_except
    (print "Compiling bt/core.py with Cython..." ;;
     _ ← subprocess_run ["cython"; "bt/core.py"; "-o"; "bt/core.c"]
           true (root self);
     print "Cython compilation successful!")
    [ClsCalledProcessError; ClsFileNotFoundError]
    (λ e,
       print ("Cython compilation failed or Cython not found: "
              +:+ str_exn e) ;;
       print "Checking if pre-compiled bt/core.c exists..." ;;
       let core_c_path := PosixPath.join (root self) ["bt"; "core.c"] in
       found ← os_path_exists core_c_path;
       (if negb found then raise (RuntimeError fatal_message) else ret tt) ;;
       print "Using pre-compiled bt/core.c").

(** ** Vocabulary of the specification *)

(** OutputFile: the path the fallback check examines. *)
Definition output_file (self : CustomBuildHook) : string :=
  PosixPath.join (root self) ["bt"; "core.c"].

(** The compiler invocation of the hook, on its own. *)
Definition invocation (self : CustomBuildHook) (w : world)
  : spawned * world :=
  popen "cython" cython_args (root self) w.

(** The child ran and exited with a non-zero status. *)
Definition exit_nonzero (s : spawned) : bool :=
  match s with
  | Exited rc => negb (rc =? 0)
  | SpawnError _ _ => false
  end.

(** Nothing ran: no such file or directory, for the executable or for the
    working directory ([FileNotFoundError] in both cases). *)
Definition not_found (s : spawned) : bool :=
  match s with
  | SpawnError ENOENT _ => true
  | _ => false
  end.

(** The two failures of the invocation that the hook recovers from. *)
Definition recoverable (s : spawned) : bool := exit_nonzero s || not_found s.

(** The exception [subprocess.run(..., check=True)] turns an outcome into. *)
Definition raised_by (args : list string) (s : spawned) : option exn :=
  match s with
  | SpawnError e filename => Some (oserror e filename)
  | Exited rc =>
      if negb (rc =? 0) then Some (CalledProcessError rc args) else None
  end.

(** A world with more operations on its trace. *)
Definition add_events (evs : list event) (w : world) : world :=
  {| fs := fs w; cwd := cwd w; programs := programs w; heap := heap w;
     trace := trace w ++ evs |}.

(** The operations one call of the hook performs. *)
Definition events (self : CustomBuildHook) (version : string)
    (build_data : loc) (w : world) : list event :=
  drop (List.length (trace w))
       (trace (initialize self version build_data w).2).

Definition ev_compiling : event :=
  EvPrint "Compiling bt/core.py with Cython...".
Definition ev_run (self : CustomBuildHook) : event :=
  EvRun ["cython"; "bt/core.py"; "-o"; "bt/core.c"] true (root self).
Definition ev_success : event := EvPrint "Cython compilation successful!".
Definition ev_failed (e : exn) : event :=
  EvPrint ("Cython compilation failed or Cython not found: " +:+ str_exn e).
Definition ev_checking : event :=
  EvPrint "Checking if pre-compiled bt/core.c exists...".
Definition ev_exists (self : CustomBuildHook) : event :=
  EvExists (output_file self).
Definition ev_using : event := EvPrint "Using pre-compiled bt/core.c".

Definition is_run (e : event) : bool :=
  match e with EvRun _ _ _ => true | _ => false end.

(** ** Worlds to run the hook in *)

Definition hook : CustomBuildHook := {| root := "/proj" |}.

(** A project with the source module and no generated file. *)
Definition disk_source_only : gmap (list string) node :=
  <[ ["proj"; "bt"; "core.py"] := File "x = 1" ]>
    (<[ ["proj"; "bt"] := Dir ]>
       (<[ ["proj"] := Dir ]> {[ [] := Dir ]})).

Definition generated : string := "/* Generated by Cython */".

(** The same project with a generated file left by an earlier build. *)
Definition disk_prebuilt : gmap (list string) node :=
  <[ ["proj"; "bt"; "core.c"] := File generated ]> disk_source_only.

Definition heap0 : gmap nat (gmap string pyval) :=
  {[ 0%nat := {[ "pure_python" := PyBool false ]} ]}.

Definition world_of (tool : launch) (disk : gmap (list string) node)
  : world :=
  {| fs := disk; cwd := [];
     programs := λ exe, if decide (exe = "cython") then tool else NotFound;
     heap := heap0; trace := [] |}.

(** The file a program writes when its fourth argument names it. *)
Definition write_output (content : string) (args : list string) (d : name)
    (f : filesystem) : filesystem :=
  match args !! 3%nat with
  | Some out => <[ (d ++ PosixPath.components out)%list := File content ]> f
  | None => f
  end.

(** A compiler that writes its output and exits with status 0. *)
Definition cython_works : program :=
  λ args d f, (write_output generated args d f, 0).

(** A program called [cython] that exits with status 0 and writes nothing. *)
Definition cython_silent : program := λ _ _ f, (f, 0).

(** A compiler that fails and leaves the disk alone. *)
Definition cython_fails : program := λ _ _ f, (f, 1).

Definition failed_marker : string :=
  "#error Do not use this file, it is the result of a failed Cython compilation.".

(** A compiler that fails after it replaced its output by an error marker,
    as Cython does with a generated file when the source has an error. *)
Definition cython_spoils : program :=
  λ args d f, (write_output failed_marker args d f, 1).

(** The compiler keeps its promise in [w]: if it exits with status 0 there,
    OutputFile exists when it has exited. *)
Definition compiler_delivers (self : CustomBuildHook) (w : world) : Prop :=
  (invocation self w).1 = Exited 0 →
  path_exists (fs (invocation self w).2) (cwd w) (output_file self) = true.

(** A working compiler under the programs [ps] and the working directory
    [wd]: on every disk that is [ready] (a valid InputFile under the build
    root, say) the invocation exits with status 0, OutputFile exists
    afterwards, and the disk is [ready] again. *)
Definition working_compiler (self : CustomBuildHook) (ps : string → launch)
    (wd : name) (ready : filesystem → Prop) : Prop :=
  ∀ f, ready f →
    ∃ f', exec ps wd "cython" cython_args (root self) f = (Exited 0, f')
          ∧ path_exists f' wd (output_file self) = true
          ∧ ready f'.

(** The same world with another heap. *)
Definition set_heap (h : gmap nat (gmap string pyval)) (w : world) : world :=
  {| fs := fs w; cwd := cwd w; programs := programs w; heap := h;
     trace := trace w |}.

(** The disks on which the example project is in place: [/proj] and
    [/proj/bt] are directories. *)
Definition project_ready (f : filesystem) : Prop :=
  f !! ([] : list string) = Some Dir
  ∧ f !! ["proj"] = Some Dir
  ∧ f !! ["proj"; "bt"] = Some Dir.

(** The lines one call of the hook prints. *)
Definition printed (self : CustomBuildHook) (version : string)
    (build_data : loc) (w : world) : list string :=
  omap (λ e, match e with EvPrint l => Some l | _ => None end)
       (events self version build_data w).

(** A project where a directory sits at the place of the generated file. *)
Definition disk_directory_artifact : gmap (list string) node :=
  <[ ["proj"; "bt"; "core.c"] := Dir ]> disk_source_only.

(** ** Stepping through the hook *)

(** Two worlds built by the same operations, up to how the trace nests. *)
Ltac same_world :=
  unfold add_events, log, raise, ret;
  cbn [negb fs cwd programs heap trace set_fs];
  rewrite <- ?app_assoc; reflexivity.

Section Stepping.

Lemma popen_frame exe args dir w :
  let w' := (popen exe args dir w).2 in
  cwd w' = cwd w ∧ programs w' = programs w ∧ heap w' = heap w
  ∧ trace w' = trace w.
Proof.
  unfold popen. by destruct (exec _ _ _ _ _ _) as [s f'].
Qed.

Lemma popen_error_fs exe args dir w e filename :
  (popen exe args dir w).1 = SpawnError e filename →
  fs (popen exe args dir w).2 = fs w.
Proof.
  unfold popen, exec.
  destruct (chdir _ _ _) as [e'|d]; simpl; [done|].
  destruct (programs w exe) as [| |run]; simpl; try done.
  by destruct (run args d (fs w)).
Qed.

Lemma handles_raised s e :
  raised_by cython_args s = Some e →
  handles [ClsCalledProcessError; ClsFileNotFoundError] e = recoverable s.
Proof.
  destruct s as [[] f|rc]; simpl.
  - by intros [= <-].
  - by intros [= <-].
  - by intros [= <-].
  - unfold recoverable; simpl. destruct (rc =? 0); simpl; [done|].
    by intros [= <-].
Qed.

(** The whole of [initialize], one case per way the invocation ends. *)
Lemma initialize_cases self version build_data w :
  initialize self version build_data w =
  let '(s, w1) := invocation self w in
  match raised_by cython_args s with
  | None =>
      (Ok tt, add_events [ev_compiling; ev_run self; ev_success] w1)
  | Some e =>
      if recoverable s then
        let evs := [ev_compiling; ev_run self; ev_failed e; ev_checking;
                    ev_exists self] in
        if path_exists (fs w1) (cwd w1) (output_file self)
        then (Ok tt, add_events (evs ++ [ev_using]) w1)
        else (Raise (RuntimeError fatal_message), add_events evs w1)
      else (Raise e, add_events [ev_compiling; ev_run self] w1)
  end.
Proof.
  unfold initialize, try_except, invocation, mbind, M_bind, bind, print,
    subprocess_run, os_path_exists, popen, output_file.
  cbn [fs cwd programs heap trace log set_fs].
  fold cython_args.
  destruct (exec (programs w) (cwd w) "cython" cython_args (root self)
              (fs w)) as [s f'].
  destruct s as [e f|rc]; cbn [raised_by].
  - rewrite (handles_raised (SpawnError e f) _ eq_refl).
    destruct (recoverable (SpawnError e f)); [|same_world].
    cbn [fs cwd programs heap trace log set_fs].
    destruct (path_exists f' (cwd w) _); same_world.
  - cbn [andb].
    destruct (negb (rc =? 0)) eqn:Hrc; [|same_world].
    pose proof (handles_raised (Exited rc)
                  (CalledProcessError rc cython_args)) as Hh.
    cbn [raised_by] in Hh. rewrite Hrc in Hh. rewrite (Hh eq_refl).
    destruct (recoverable (Exited rc)); [|same_world].
    cbn [fs cwd programs heap trace log set_fs].
    destruct (path_exists f' (cwd w) _); same_world.
Qed.

End Stepping.

(** ** Paths: joining and resolving *)

Section Paths.

Lemma app_cons a (s t : string) : String a s +:+ t = String a (s +:+ t).
Proof. reflexivity. Qed.

Lemma app_assoc_str (s t u : string) : (s +:+ t) +:+ u = s +:+ t +:+ u.
Proof. induction s as [|a s IH]; [done|]. by rewrite !app_cons, IH. Qed.

Lemma split_cons c a s :
  Str.split c (String a s) =
  if Ascii.eqb a c then EmptyString :: Str.split c s
  else match Str.split c s with
       | [] => [String a EmptyString]
       | x :: xs => String a x :: xs
       end.
Proof. reflexivity. Qed.

Lemma split_nonempty c s : Str.split c s ≠ [].
Proof.
  destruct s as [|a s]; [done|]. rewrite split_cons.
  destruct (Ascii.eqb a c); [done|]. by destruct (Str.split c s).
Qed.

(** Splitting at a separator that is known to be there. *)
Lemma split_app_sep c (s t : string) :
  Str.split c (s +:+ String c t) = (Str.split c s ++ Str.split c t)%list.
Proof.
  induction s as [|a s IH].
  - change (EmptyString +:+ String c t) with (String c t).
    rewrite split_cons, Ascii.eqb_refl. reflexivity.
  - rewrite app_cons, !split_cons, IH.
    destruct (Ascii.eqb a c); [reflexivity|].
    pose proof (split_nonempty c s).
    by destruct (Str.split c s).
Qed.

Lemma endswith_char_inv s c :
  Str.endswith_char s c = true → ∃ r, s = r +:+ String c EmptyString.
Proof.
  induction s as [|a s IH]; [done|].
  destruct s as [|b s].
  - simpl. intros ->%Ascii.eqb_eq. by exists EmptyString.
  - intros H. destruct (IH H) as [r ->]. by exists (String a r).
Qed.

Lemma endswith_char_app s t c :
  t ≠ EmptyString →
  Str.endswith_char (s +:+ t) c = Str.endswith_char t c.
Proof.
  intros Ht. induction s as [|a s IH]; [done|].
  rewrite app_cons. destruct (s +:+ t) as [|b u] eqn:Hu.
  - destruct s; [by destruct t|done].
  - exact IH.
Qed.

Lemma is_empty_app s t :
  Str.is_empty (s +:+ t) = Str.is_empty s && Str.is_empty t.
Proof. by destruct s. Qed.

Lemma isabs_app s t :
  s ≠ EmptyString → PosixPath.isabs (s +:+ t) = PosixPath.isabs s.
Proof.
  intros Hs. destruct s as [|a s]; [done|].
  unfold PosixPath.isabs, PosixPath.sep. by rewrite app_cons.
Qed.

(** What [os.path.join(root, "bt", "core.c")] comes to: one separator
    between the root and [bt/core.c], whether or not the root ends in
    one already. *)
Lemma join_bt_core_c (r : string) :
  r ≠ EmptyString →
  ∃ r', PosixPath.join r ["bt"; "core.c"] = r' +:+ "/bt/core.c"
        ∧ (r = r' ∨ r = r' +:+ "/").
Proof.
  intros Hr. unfold PosixPath.join. cbn [fold_left].
  assert (Hne : Str.is_empty r = false) by by destruct r.
  assert (H1 : ∃ r', PosixPath.join_step r "bt" = r' +:+ "/bt"
                     ∧ (r = r' ∨ r = r' +:+ "/")).
  { unfold PosixPath.join_step.
    change (Str.startswith "bt" PosixPath.sep) with false.
    rewrite Hne. cbn [orb]. cbv iota.
    destruct (Str.endswith_char r PosixPath.sep_char) eqn:He.
    - apply endswith_char_inv in He as [r' ->].
      exists r'. split; [|by right]. by rewrite app_assoc_str.
    - exists r. split; [|by left]. reflexivity. }
  destruct H1 as (r' & -> & Hr').
  exists r'. split; [|done].
  unfold PosixPath.join_step.
  change (Str.startswith "core.c" PosixPath.sep) with false.
  rewrite is_empty_app, andb_false_r. cbn [orb].
  rewrite endswith_char_app by done.
  change (Str.endswith_char "/bt" PosixPath.sep_char) with false.
  cbv iota. by rewrite app_assoc_str.
Qed.

Lemma walk_app f cur cs1 cs2 :
  walk f cur (cs1 ++ cs2) =
  match walk f cur cs1 with
  | inl e => inl e
  | inr q => walk f q cs2
  end.
Proof.
  revert cur. induction cs1 as [|c cs1 IH]; intros cur; [done|].
  simpl. destruct (f !! cur) as [[]|]; auto.
Qed.

(** Resolving the joined path from the build's directory is resolving
    [bt/core.c] from the directory [chdir] reached. *)
Lemma stat_join_chdir f wd r d :
  chdir f wd r = inr d →
  stat f wd (PosixPath.join r ["bt"; "core.c"]) = stat f d "bt/core.c".
Proof.
  intros Hcd.
  assert (Hr : r ≠ EmptyString).
  { intros ->. by vm_compute in Hcd. }
  destruct (join_bt_core_c r Hr) as (r' & -> & Hr').
  assert (Hr'ne : r' +:+ "/bt/core.c" ≠ EmptyString) by by destruct r'.
  assert (Hw : walk f (if PosixPath.isabs r then [] else wd)
                 (PosixPath.components r') = inr d ∧ f !! d = Some Dir).
  { unfold chdir, namei in Hcd.
    destruct (Str.is_empty r) eqn:He; [by destruct r|].
    destruct (walk _ _ (PosixPath.components r)) as [e|q] eqn:Hq; [done|].
    destruct (f !! q) as [[]|] eqn:Hfq; simplify_eq.
    split; [|done].
    destruct Hr' as [<-| ->]; [done|].
    unfold PosixPath.components, PosixPath.sep_char in Hq.
    rewrite split_app_sep, walk_app in Hq.
    destruct (walk _ _ (Str.split _ r')) as [e|q'] eqn:Hq'; [done|].
    unfold PosixPath.components, PosixPath.sep_char. 
    simpl in Hq. destruct (f !! q') as [[]|]; by simplify_eq. }
  destruct Hw as [Hw Hd].
  assert (Habs : PosixPath.isabs (r' +:+ "/bt/core.c") = PosixPath.isabs r).
  { destruct Hr' as [<-| ->].
    - by apply isabs_app.
    - destruct r' as [|a r']; [done|]. by rewrite !isabs_app. }
  unfold stat, namei.
  rewrite Habs.
  destruct (Str.is_empty (r' +:+ "/bt/core.c")) eqn:He;
    [by destruct r'|].
  change (Str.is_empty "bt/core.c") with false.
  change (PosixPath.isabs "bt/core.c") with false.
  cbv iota.
  unfold PosixPath.components at 1, PosixPath.sep_char.
  change "/bt/core.c" with (String "/" "bt/core.c").
  rewrite split_app_sep, walk_app.
  unfold PosixPath.components, PosixPath.sep_char in Hw. rewrite Hw.
  reflexivity.
Qed.

End Paths.

(** ** The claims *)

Section Cases.

Lemma events_of_add evs w w1 :
  trace w1 = trace w →
  drop (List.length (trace w)) (trace (add_events evs w1)) = evs.
Proof. intros H. simpl. rewrite H. apply drop_app_length. Qed.

Lemma stdout_add evs w :
  stdout (add_events evs w)
  = (stdout w
     ++ omap (λ e, match e with EvPrint l => Some l | _ => None end) evs)%list.
Proof. unfold stdout; simpl. apply omap_app. Qed.

Lemma invocation_frame self w :
  let w1 := (invocation self w).2 in
  cwd w1 = cwd w ∧ programs w1 = programs w ∧ heap w1 = heap w
  ∧ trace w1 = trace w.
Proof. apply popen_frame. Qed.

Lemma elem_of_ev_exists self (e1 e2 e3 e4 : event) (rest : list event) :
  ev_exists self ∈ e1 :: e2 :: e3 :: e4 :: ev_exists self :: rest.
Proof. rewrite !elem_of_cons. naive_solver. Qed.

End Cases.

(** Case analysis on how the invocation ended, and on the fallback check. *)
Ltac hook_cases self w :=
  unfold events; rewrite ?initialize_cases;
  let Hc := fresh "Hcwd" in
  let Hp := fresh "Hprog" in
  let Hh := fresh "Hheap" in
  let Ht := fresh "Htrace" in
  destruct (invocation_frame self w) as (Hc & Hp & Hh & Ht);
  let s := fresh "s" in
  let w1 := fresh "w1" in
  let e := fresh "e" in
  let rc := fresh "rc" in
  destruct (invocation self w) as [s w1];
  cbn [fst snd] in *;
  destruct s as [e ?|rc];
  [ destruct e | ];
  unfold recoverable, raised_by, exit_nonzero, not_found, oserror;
  try match goal with
      | |- context [?z =? 0] => destruct (Z.eqb_spec z 0)
      end;
  cbn [negb orb];
  try match goal with
      | |- context [if path_exists ?f ?d ?p then _ else _] =>
          destruct (path_exists f d p) eqn:?
      end;
  cbn [fst snd app];
  rewrite ?events_of_add by assumption.

(** After the step the disk is the one the invocation left. *)
Lemma initialize_disk self version build_data w :
  fs (initialize self version build_data w).2 = fs (invocation self w).2.
Proof. hook_cases self w; reflexivity. Qed.





(** C2, as the code has it: a program called [cython] that exits with
    status 0 and writes nothing lets the step complete without an error,
    and OutputFile does not exist afterwards. *)
Lemma initialize_ok_without_output :
  let w := world_of (Installed cython_silent) disk_source_only in
  let r := initialize hook "standard" 0%nat w in
  r.1 = Ok tt ∧ path_exists (fs r.2) (cwd r.2) (output_file hook) = false.
Proof. by vm_compute. Qed.

(** C2, amended. If the step completes without raising, and the compiler
    keeps its promise (status 0 only after it wrote OutputFile; the hook does
    not check this), then OutputFile exists afterwards: the compiler exited
    with status 0, or the fallback check found the file. The hook itself
    leaves the disk as the invocation left it, and changes neither the
    working directory, nor the programs, nor the heap. *)
Theorem initialize_ok_output_exists self version build_data w :
  compiler_delivers self w →
  let r := initialize self version build_data w in
  r.1 = Ok tt →
  path_exists (fs r.2) (cwd r.2) (output_file self) = true
  ∧ ((invocation self w).1 = Exited 0
     ∨ ev_exists self ∈ events self version build_data w)
  ∧ fs r.2 = fs (invocation self w).2
  ∧ cwd r.2 = cwd w ∧ programs r.2 = programs w ∧ heap r.2 = heap w.
Proof.
  intros Hdel. unfold compiler_delivers in Hdel. cbv zeta.
  hook_cases self w; intros Hok; try discriminate Hok.
  all: cbn [fs cwd programs heap add_events]; rewrite <- ?Hcwd in Hdel.
  all: repeat split; eauto using elem_of_ev_exists.
  - subst rc. by apply Hdel.
  - subst rc. by left.
Qed.

Lemma initialize_ok_output_exists_witness :
  let w := world_of (Installed cython_works) disk_source_only in
  let r := initialize hook "standard" 0%nat w in
  path_exists (fs r.2) (cwd r.2) (output_file hook) = true
  ∧ ((invocation hook w).1 = Exited 0
     ∨ ev_exists hook ∈ events hook "standard" 0%nat w)
  ∧ fs r.2 = fs (invocation hook w).2
  ∧ cwd r.2 = cwd w ∧ programs r.2 = programs w ∧ heap r.2 = heap w.
Proof.
  intros w r.
  apply (initialize_ok_output_exists hook "standard" 0%nat w).
  - intros _. by vm_compute.
  - by vm_compute.
Defined.

(** C3, as the code has it: when [cython] is found and cannot be executed,
    [subprocess.run] raises [PermissionError]; the [except] clause names
    [CalledProcessError] and [FileNotFoundError] only, so the error leaves
    the hook as it is, and it is not the fatal error. *)
Lemma initialize_permission_error_escapes :
  let w := world_of NotExecutable disk_source_only in
  (initialize hook "standard" 0%nat w).1 = Raise (PermissionError "cython")
  ∧ class_of (PermissionError "cython") ≠ ClsRuntimeError.
Proof. by vm_compute. Qed.

(** C3, amended. An exception that leaves the hook is never one the
    [except] clause takes ([CalledProcessError], [FileNotFoundError]): it is
    the fatal error with its remediation message, raised after a recoverable
    failure of the invocation, or it is the error of a launch the operating
    system refused for another reason than a missing file, passed on
    unchanged. *)
Theorem initialize_raises_only self version build_data w e :
  (initialize self version build_data w).1 = Raise e →
  handles [ClsCalledProcessError; ClsFileNotFoundError] e = false
  ∧ ((e = RuntimeError fatal_message
      ∧ recoverable (invocation self w).1 = true)
     ∨ (∃ errno filename,
          (invocation self w).1 = SpawnError errno filename
          ∧ errno ≠ ENOENT ∧ e = oserror errno filename)).
Proof.
  hook_cases self w; intros [= <-]; (split; [reflexivity|]).
  all: try (left; split; reflexivity).
  all: right; eexists _, _; repeat split; done.
Qed.

Lemma initialize_raises_only_witness :
  let w := world_of NotFound disk_source_only in
  handles [ClsCalledProcessError; ClsFileNotFoundError]
    (RuntimeError fatal_message) = false
  ∧ ((RuntimeError fatal_message = RuntimeError fatal_message
      ∧ recoverable (invocation hook w).1 = true)
     ∨ (∃ errno filename,
          (invocation hook w).1 = SpawnError errno filename
          ∧ errno ≠ ENOENT
          ∧ RuntimeError fatal_message = oserror errno filename)).
Proof.
  intros w.
  apply (initialize_raises_only hook "standard" 0%nat w).
  by vm_compute.
Defined.

(** C4, at the input where the code fails it. The project holds a generated
    [bt/core.c] from an earlier build, and the compiler, as Cython does on a
    source with an error, replaces it by its error marker and exits with
    status 1. The hook takes the failure, finds a file at OutputFile, prints
    that it uses the pre-compiled file and succeeds; the file it then uses
    is the marker, not what was there before the step. *)
Lemma initialize_failing_compiler_rewrites_output :
  let w := world_of (Installed cython_spoils) disk_prebuilt in
  let r := initialize hook "standard" 0%nat w in
  exit_nonzero (invocation hook w).1 = true
  ∧ stat (fs w) (cwd w) (output_file hook) = inr (File generated)
  ∧ r.1 = Ok tt
  ∧ last (stdout r.2) = Some "Using pre-compiled bt/core.c"
  ∧ stat (fs r.2) (cwd r.2) (output_file hook) = inr (File failed_marker)
  ∧ generated ≠ failed_marker.
Proof. by vm_compute. Qed.

(** C5. Every call of the hook makes one subprocess call: [cython] with the
    arguments [bt/core.py], [-o], [bt/core.c], the exit status checked, and
    the build root as working directory. When the root is a directory and
    [cython] is installed, the program runs with these arguments in that
    directory, and what it does to the disk is what the step does to it. *)
Theorem initialize_runs_cython self version build_data w :
  let evs := events self version build_data w in
  (∃ rest,
     evs = ev_compiling
           :: EvRun ["cython"; "bt/core.py"; "-o"; "bt/core.c"] true
                (root self)
           :: rest
     ∧ Forall (λ ev, is_run ev = false) rest)
  ∧ (∀ d run,
       chdir (fs w) (cwd w) (root self) = inr d →
       programs w "cython" = Installed run →
       fs (initialize self version build_data w).2
       = (run ["cython"; "bt/core.py"; "-o"; "bt/core.c"] d (fs w)).1).
Proof.
  intros evs. subst evs. split.
  - hook_cases self w; eexists; (split; [reflexivity|]);
      repeat constructor.
  - intros d run Hd Hrun.
    rewrite initialize_disk.
    unfold invocation, popen, exec. rewrite Hd, Hrun.
    fold cython_args. by destruct (run cython_args d (fs w)).
Qed.

Section Twice.

Variable self : CustomBuildHook.
Variable ready : filesystem → Prop.

(** One run with a working compiler: success, OutputFile on the disk, and a
    world the compiler works in again. *)
Lemma initialize_working version build_data w :
  working_compiler self (programs w) (cwd w) ready →
  ready (fs w) →
  let r := initialize self version build_data w in
  r.1 = Ok tt
  ∧ path_exists (fs r.2) (cwd r.2) (output_file self) = true
  ∧ ready (fs r.2) ∧ programs r.2 = programs w ∧ cwd r.2 = cwd w.
Proof.
  intros Hwork Hready. cbv zeta. rewrite initialize_cases.
  unfold invocation, popen.
  destruct (Hwork _ Hready) as (f' & -> & Hout & Hready').
  by cbn.
Qed.

End Twice.

(** C6. With a working compiler, two runs of the step in succession both
    report success, and OutputFile exists after each. *)
Theorem initialize_twice self ready version1 build_data1 version2
    build_data2 w :
  working_compiler self (programs w) (cwd w) ready →
  ready (fs w) →
  let r1 := initialize self version1 build_data1 w in
  let r2 := initialize self version2 build_data2 r1.2 in
  r1.1 = Ok tt
  ∧ path_exists (fs r1.2) (cwd r1.2) (output_file self) = true
  ∧ r2.1 = Ok tt
  ∧ path_exists (fs r2.2) (cwd r2.2) (output_file self) = true.
Proof.
  intros Hwork Hready r1 r2.
  destruct (initialize_working self ready version1 build_data1 w
              Hwork Hready) as (Hok1 & Hout1 & Hready1 & Hp1 & Hc1).
  fold r1 in Hok1, Hout1, Hready1, Hp1, Hc1.
  rewrite <- Hp1, <- Hc1 in Hwork.
  destruct (initialize_working self ready version2 build_data2 r1.2
              Hwork Hready1) as (Hok2 & Hout2 & _).
  done.
Qed.

Section ExampleProject.

Variable f : filesystem.
Hypothesis Hready : project_ready f.

Lemma project_chdir : chdir f [] "/proj" = inr ["proj"].
Proof.
  destruct Hready as (H0 & H1 & H2).
  unfold chdir, namei.
  change (Str.is_empty "/proj") with false.
  change (PosixPath.isabs "/proj") with true.
  change (PosixPath.components "/proj") with [EmptyString; "proj"].
  cbn [walk]. rewrite H0.
  change (enter [] EmptyString) with ([] : list string). rewrite H0.
  change (enter [] "proj") with ["proj"]. by rewrite H1.
Qed.

Lemma project_output_exists content :
  f !! ["proj"; "bt"; "core.c"] = Some (File content) →
  path_exists f [] (output_file hook) = true.
Proof.
  intros Hc. unfold path_exists, output_file.
  rewrite (stat_join_chdir f [] (root hook) ["proj"] project_chdir).
  destruct Hready as (H0 & H1 & H2).
  unfold stat, namei.
  change (Str.is_empty "bt/core.c") with false.
  change (PosixPath.isabs "bt/core.c") with false.
  change (PosixPath.components "bt/core.c") with ["bt"; "core.c"].
  cbn [walk]. rewrite H1.
  change (enter ["proj"] "bt") with ["proj"; "bt"]. rewrite H2.
  change (enter ["proj"; "bt"] "core.c") with ["proj"; "bt"; "core.c"].
  by rewrite Hc.
Qed.

End ExampleProject.

Lemma project_ready_insert f content :
  project_ready f →
  project_ready (<[ ["proj"; "bt"; "core.c"] := File content ]> f).
Proof.
  intros (H0 & H1 & H2). unfold project_ready.
  by rewrite !lookup_insert_ne.
Qed.

Lemma cython_works_is_working :
  working_compiler hook
    (programs (world_of (Installed cython_works) disk_source_only)) []
    project_ready.
Proof.
  intros f Hf.
  exists (<[ ["proj"; "bt"; "core.c"] := File generated ]> f).
  split; [|split].
  - unfold exec. change (root hook) with "/proj".
    by rewrite (project_chdir f Hf).
  - apply (project_output_exists _ (project_ready_insert f generated Hf)
             generated).
    apply lookup_insert_eq.
  - by apply project_ready_insert.
Defined.

Lemma disk_source_only_ready : project_ready disk_source_only.
Proof. by vm_compute. Defined.

Lemma initialize_twice_witness :
  let w := world_of (Installed cython_works) disk_source_only in
  let r1 := initialize hook "standard" 0%nat w in
  let r2 := initialize hook "editable" 0%nat r1.2 in
  r1.1 = Ok tt
  ∧ path_exists (fs r1.2) (cwd r1.2) (output_file hook) = true
  ∧ r2.1 = Ok tt
  ∧ path_exists (fs r2.2) (cwd r2.2) (output_file hook) = true.
Proof.
  intros w.
  apply (initialize_twice hook project_ready "standard" 0%nat "editable"
           0%nat w).
  - exact cython_works_is_working.
  - exact disk_source_only_ready.
Defined.

(** C7. When the compiler exits with status 0 the step prints its success
    line and succeeds at once: its operations are the first print, the
    subprocess call and the success print, with no existence check among
    them. An existence check happens only after a failure of the invocation
    that the hook recovers from. *)
Theorem initialize_success_skips_check self version build_data w :
  let s := (invocation self w).1 in
  let r := initialize self version build_data w in
  let evs := events self version build_data w in
  (s = Exited 0 →
     r.1 = Ok tt
     ∧ evs = [ev_compiling; ev_run self;
              EvPrint "Cython compilation successful!"]
     ∧ last (stdout r.2) = Some "Cython compilation successful!"
     ∧ ∀ p, EvExists p ∉ evs)
  ∧ (∀ p, EvExists p ∈ evs → exit_nonzero s = true ∨ not_found s = true).
Proof.
  intros s r evs. subst s r evs.
  hook_cases self w; rewrite ?stdout_add, ?last_app; cbn [omap last];
    split; try discriminate; try congruence; auto.
  all: try (intros _; repeat split; intros p Hp).
  all: try (intros p Hp).
  all: repeat match goal with
         | H : _ ∈ _ :: _ |- _ => apply elem_of_cons in H as [H|H]
         | H : _ ∈ [] |- _ => by apply elem_of_nil in H
         end;
       try discriminate.
Qed.

Section Arguments.

Lemma popen_set_heap exe args dir h w :
  popen exe args dir (set_heap h w)
  = let '(s, w') := popen exe args dir w in (s, set_heap h w').
Proof.
  unfold popen; simpl. by destruct (exec _ _ _ _ _ _) as [s f'].
Qed.

(** The heap goes through the hook untouched, whatever it holds, and
    nothing else depends on it or on the arguments. *)
Lemma initialize_set_heap self version1 build_data1 version2 build_data2
    h w :
  initialize self version2 build_data2 (set_heap h w)
  = let '(r, w') := initialize self version1 build_data1 w in
    (r, set_heap h w').
Proof.
  rewrite !initialize_cases. unfold invocation. rewrite popen_set_heap.
  destruct (popen "cython" cython_args (root self) w) as [s w1].
  destruct (raised_by cython_args s); [|reflexivity].
  destruct (recoverable s); [|reflexivity].
  cbn [fs cwd set_heap].
  by destruct (path_exists (fs w1) (cwd w1) (output_file self)).
Qed.

End Arguments.

(** C8. Two calls on the same build root, disk, working directory and
    programs, with any two versions and any two [build_data] references,
    over any two heaps, end the same way, leave the same disk and perform
    the same operations (the same subprocess call among them). *)
Theorem initialize_ignores_arguments self version1 build_data1 version2
    build_data2 h w :
  let r1 := initialize self version1 build_data1 w in
  let r2 := initialize self version2 build_data2 (set_heap h w) in
  r1.1 = r2.1
  ∧ fs r1.2 = fs r2.2
  ∧ events self version1 build_data1 w
    = events self version2 build_data2 (set_heap h w)
  ∧ List.filter is_run (events self version1 build_data1 w)
    = List.filter is_run (events self version2 build_data2 (set_heap h w)).
Proof.
  intros r1 r2. subst r1 r2. unfold events.
  rewrite (initialize_set_heap self version1 build_data1 version2
             build_data2 h w).
  by destruct (initialize self version1 build_data1 w) as [r w'].
Qed.

(** C9. Where the build root can be entered, the file the fallback check
    looks at, [os.path.join(root, "bt", "core.c")] resolved from the
    build's working directory, is the file that the compiler's output
    argument [bt/core.c] (the last one) names from inside the root. *)
Theorem output_file_is_compiler_output self f wd d :
  chdir f wd (root self) = inr d →
  ∃ out, last cython_args = Some out
         ∧ stat f wd (output_file self) = stat f d out
         ∧ path_exists f wd (output_file self) = path_exists f d out.
Proof.
  intros Hd. exists "bt/core.c". split; [reflexivity|].
  unfold path_exists, output_file.
  by rewrite (stat_join_chdir f wd (root self) d Hd).
Qed.

Lemma output_file_is_compiler_output_witness :
  ∃ out, last cython_args = Some out
         ∧ stat disk_prebuilt [] (output_file hook)
           = stat disk_prebuilt ["proj"] out
         ∧ path_exists disk_prebuilt [] (output_file hook)
           = path_exists disk_prebuilt ["proj"] out.
Proof.
  apply (output_file_is_compiler_output hook disk_prebuilt [] ["proj"]).
  by vm_compute.
Defined.

(** C10. The heap of the interpreter, and with it the dictionary
    [build_data] refers to, is after the call what it was before, whether
    the step succeeds or raises. *)
Theorem initialize_keeps_build_data self version build_data w :
  let r := initialize self version build_data w in
  heap r.2 = heap w ∧ heap r.2 !! build_data = heap w !! build_data.
Proof.
  cbv zeta.
  assert (H : heap (initialize self version build_data w).2 = heap w).
  { hook_cases self w; done. }
  by rewrite H.
Qed.

(** ** The scenarios of the specification, run *)

(** The source is there, no generated file, no compiler: the fatal error. *)
Example scenario_no_compiler_no_artifact :
  (initialize hook "standard" 0%nat
     (world_of NotFound disk_source_only)).1
  = Raise (RuntimeError fatal_message).
Proof. by vm_compute. Qed.

(** A generated file from an earlier build, no compiler: success, and the
    file is the one the step started with. *)
Example scenario_no_compiler_prebuilt :
  let r := initialize hook "standard" 0%nat (world_of NotFound disk_prebuilt) in
  r.1 = Ok tt
  ∧ stat (fs r.2) [] "/proj/bt/core.c" = inr (File generated)
  ∧ last (stdout r.2) = Some "Using pre-compiled bt/core.c".
Proof. by vm_compute. Qed.

(** A compiler that fails without touching the disk, and a generated file:
    success with the same file. *)
Example scenario_failing_compiler_prebuilt :
  let r := initialize hook "standard" 0%nat
             (world_of (Installed cython_fails) disk_prebuilt) in
  r.1 = Ok tt ∧ stat (fs r.2) [] "/proj/bt/core.c" = inr (File generated).
Proof. by vm_compute. Qed.

(** A working compiler: success, and the generated file is on the disk. *)
Example scenario_working_compiler :
  let r := initialize hook "standard" 0%nat
             (world_of (Installed cython_works) disk_source_only) in
  r.1 = Ok tt
  ∧ stat (fs r.2) [] "/proj/bt/core.c" = inr (File generated)
  ∧ stdout r.2 = ["Compiling bt/core.py with Cython...";
                  "Cython compilation successful!"].
Proof. by vm_compute. Qed.

(** A build root that is a file: the launch fails with [NotADirectoryError],
    which the hook does not take. *)
Example scenario_root_is_a_file :
  (initialize {| root := "/proj/bt/core.py" |} "standard" 0%nat
     (world_of (Installed cython_works) disk_source_only)).1
  = Raise (NotADirectoryError "/proj/bt/core.py").
Proof. by vm_compute. Qed.

(** ** Further properties of the hook *)

(** The step succeeds exactly when the compiler exits with status 0, or the
    invocation failed in a way the hook recovers from and something exists
    at OutputFile when the fallback check looks: a file of any content or a
    directory, the check does not tell them apart. *)
Theorem initialize_ok_iff self version build_data w :
  let s := (invocation self w).1 in
  let left := fs (invocation self w).2 in
  (initialize self version build_data w).1 = Ok tt
  ↔ s = Exited 0
    ∨ (recoverable s = true
       ∧ ∃ n, stat left (cwd w) (output_file self) = inr n).
Proof.
  cbv zeta. unfold path_exists.
  hook_cases self w; rewrite <- ?Hcwd;
    try match goal with
        | H : path_exists _ _ _ = _ |- _ =>
            unfold path_exists in H;
            destruct (stat (fs w1) (cwd w1) (output_file self)) eqn:?
        end;
    split; intros; destruct_or?; destruct_and?;
      try match goal with H : ∃ _, _ |- _ => destruct H end;
      try discriminate; try congruence; eauto.
  subst rc. by left.
Qed.

Section UnreachableRoot.

(** A root that cannot be entered hides the joined path too: resolution
    fails for it with the error number [chdir] failed with. *)
Lemma stat_join_chdir_fail f wd r e :
  r ≠ EmptyString →
  chdir f wd r = inl e →
  stat f wd (PosixPath.join r ["bt"; "core.c"]) = inl e.
Proof.
  intros Hr Hcd.
  destruct (join_bt_core_c r Hr) as (r' & -> & Hr').
  assert (Habs : PosixPath.isabs (r' +:+ "/bt/core.c") = PosixPath.isabs r).
  { destruct Hr' as [<-| ->].
    - by apply isabs_app.
    - destruct r' as [|a r']; [done|]. by rewrite !isabs_app. }
  unfold stat, namei. rewrite Habs.
  destruct (Str.is_empty (r' +:+ "/bt/core.c")) eqn:He; [by destruct r'|].
  unfold PosixPath.components, PosixPath.sep_char.
  change "/bt/core.c" with (String "/" "bt/core.c").
  rewrite split_app_sep, walk_app.
  change (Str.split "/" "bt/core.c") with ["bt"; "core.c"].
  unfold chdir, namei in Hcd.
  destruct (Str.is_empty r) eqn:Her; [by destruct r|].
  unfold PosixPath.components, PosixPath.sep_char in Hcd.
  destruct Hr' as [<-| ->].
  - destruct (walk f _ (Str.split "/" r)) as [e'|q]; [by simplify_eq|].
    cbn [walk]. destruct (f !! q) as [[]|]; by simplify_eq.
  - rewrite split_app_sep, walk_app in Hcd.
    change (Str.split "/" EmptyString) with [EmptyString] in Hcd.
    destruct (walk f _ (Str.split "/" r')) as [e'|q]; [by simplify_eq|].
    cbn [walk] in *.
    change (enter q EmptyString) with q in Hcd.
    destruct (f !! q) as [[]|] eqn:Hq; rewrite ?Hq in Hcd; by simplify_eq.
Qed.

End UnreachableRoot.

(** A build root that does not exist: the launch fails for want of the
    directory, the fallback check cannot find a file under it either, and
    the step ends in the fatal error that asks for Cython, whether or not
    Cython is installed; nothing is executed and the disk stays as it is. *)
Theorem initialize_missing_root self version build_data w :
  root self ≠ EmptyString →
  chdir (fs w) (cwd w) (root self) = inl ENOENT →
  let r := initialize self version build_data w in
  r.1 = Raise (RuntimeError fatal_message)
  ∧ fs r.2 = fs w
  ∧ (invocation self w).1 = SpawnError ENOENT (root self).
Proof.
  intros Hr Hcd. cbv zeta.
  pose proof (stat_join_chdir_fail _ _ _ _ Hr Hcd) as Hstat.
  rewrite initialize_cases. unfold invocation, popen, exec.
  rewrite Hcd. cbn [raised_by oserror recoverable exit_nonzero not_found orb
                    fs cwd set_fs].
  unfold path_exists, output_file. by rewrite Hstat.
Qed.

Lemma initialize_missing_root_witness :
  let self := {| root := "/nowhere" |} in
  let w := world_of (Installed cython_works) disk_prebuilt in
  let r := initialize self "standard" 0%nat w in
  r.1 = Raise (RuntimeError fatal_message)
  ∧ fs r.2 = fs w
  ∧ (invocation self w).1 = SpawnError ENOENT (root self).
Proof.
  intros self w.
  apply (initialize_missing_root self "standard" 0%nat w).
  - discriminate.
  - by vm_compute.
Defined.

(** An empty build root: the child cannot enter it, so nothing is ever
    executed, and the fallback check looks for [bt/core.c] from the working
    directory of the build itself; the step succeeds exactly when that
    exists, and raises the fatal error otherwise. *)
Theorem initialize_empty_root version build_data w :
  let r := initialize {| root := EmptyString |} version build_data w in
  fs r.2 = fs w
  ∧ (r.1 = Ok tt ↔ path_exists (fs w) (cwd w) "bt/core.c" = true)
  ∧ (r.1 = Raise (RuntimeError fatal_message)
     ↔ path_exists (fs w) (cwd w) "bt/core.c" = false).
Proof.
  cbv zeta. rewrite initialize_cases. unfold invocation, popen, exec.
  change (chdir (fs w) (cwd w) (root {| root := EmptyString |}))
    with (inl ENOENT : errno + name).
  cbn [raised_by oserror recoverable exit_nonzero not_found orb
       fs cwd set_fs].
  change (output_file {| root := EmptyString |}) with "bt/core.c".
  destruct (path_exists (fs w) (cwd w) "bt/core.c"); cbn [fst snd fs add_events];
    repeat split; intros; try done.
Qed.

(** A build root that is not a directory: [subprocess.run] raises
    [NotADirectoryError] for the root, which the hook does not take; it
    escapes after the first print and the call, with no existence check,
    whatever the disk holds at OutputFile's place and whether or not Cython
    is installed. *)
Theorem initialize_root_not_directory self version build_data w :
  chdir (fs w) (cwd w) (root self) = inl ENOTDIR →
  let r := initialize self version build_data w in
  r.1 = Raise (NotADirectoryError (root self))
  ∧ fs r.2 = fs w
  ∧ events self version build_data w = [ev_compiling; ev_run self].
Proof.
  intros Hcd. cbv zeta. unfold events.
  rewrite initialize_cases. unfold invocation, popen, exec.
  rewrite Hcd. cbn [raised_by oserror recoverable exit_nonzero not_found orb
                    fs cwd set_fs fst snd].
  repeat split. by apply events_of_add.
Qed.

Lemma initialize_root_not_directory_witness :
  let self := {| root := "/proj/bt/core.py" |} in
  let w := world_of (Installed cython_works) disk_source_only in
  let r := initialize self "standard" 0%nat w in
  r.1 = Raise (NotADirectoryError (root self))
  ∧ fs r.2 = fs w
  ∧ events self "standard" 0%nat w = [ev_compiling; ev_run self].
Proof.
  intros self w.
  apply (initialize_root_not_directory self "standard" 0%nat w).
  by vm_compute.
Defined.

(** Cython found but not executable: [PermissionError] for [cython] escapes
    the hook, and a generated file from an earlier build does not help: the
    fallback check is never reached. *)
Theorem initialize_not_executable self version build_data w d :
  chdir (fs w) (cwd w) (root self) = inr d →
  programs w "cython" = NotExecutable →
  let r := initialize self version build_data w in
  r.1 = Raise (PermissionError "cython")
  ∧ fs r.2 = fs w
  ∧ events self version build_data w = [ev_compiling; ev_run self].
Proof.
  intros Hcd Hprog. cbv zeta. unfold events.
  rewrite initialize_cases. unfold invocation, popen, exec.
  rewrite Hcd, Hprog.
  cbn [raised_by oserror recoverable exit_nonzero not_found orb
       fs cwd set_fs fst snd].
  repeat split. by apply events_of_add.
Qed.

Lemma initialize_not_executable_witness :
  let w := world_of NotExecutable disk_prebuilt in
  let r := initialize hook "standard" 0%nat w in
  r.1 = Raise (PermissionError "cython")
  ∧ fs r.2 = fs w
  ∧ events hook "standard" 0%nat w = [ev_compiling; ev_run hook].
Proof.
  intros w.
  apply (initialize_not_executable hook "standard" 0%nat w ["proj"]).
  - by vm_compute.
  - by vm_compute.
Defined.

Section Transcript.

Lemma failed_line_not_success x :
  "Cython compilation failed or Cython not found: " +:+ x
  ≠ "Cython compilation successful!".
Proof. intros H. cbv [String.append] in H. discriminate H. Qed.

Lemma failed_line_not_using x :
  "Cython compilation failed or Cython not found: " +:+ x
  ≠ "Using pre-compiled bt/core.c".
Proof. intros H. cbv [String.append] in H. discriminate H. Qed.

Lemma stdout_same_trace w w1 : trace w1 = trace w → stdout w1 = stdout w.
Proof. unfold stdout. by intros ->. Qed.

End Transcript.

(** What the hook prints. Its lines are appended to standard output, the
    first is always the one that announces the compilation. The success
    line is printed exactly when the compiler exits with status 0, and the
    line about the pre-compiled file exactly when the step succeeds after a
    failure it recovered from. After such a failure the second line carries
    the text of the exception and the third announces the check. *)
Theorem initialize_prints self version build_data w :
  let s := (invocation self w).1 in
  let r := initialize self version build_data w in
  let lines := printed self version build_data w in
  stdout r.2 = (stdout w ++ lines)%list
  ∧ head lines = Some "Compiling bt/core.py with Cython..."
  ∧ ("Cython compilation successful!" ∈ lines ↔ s = Exited 0)
  ∧ ("Using pre-compiled bt/core.c" ∈ lines
     ↔ recoverable s = true ∧ r.1 = Ok tt)
  ∧ (∀ e, raised_by cython_args s = Some e → recoverable s = true →
       lines !! 1%nat
       = Some ("Cython compilation failed or Cython not found: "
               +:+ str_exn e)
       ∧ lines !! 2%nat
         = Some "Checking if pre-compiled bt/core.c exists...").
Proof.
  cbv zeta. unfold printed.
  hook_cases self w; rewrite stdout_add, (stdout_same_trace w w1 Htrace);
    cbn [omap list_omap ev_compiling ev_run ev_success ev_failed ev_checking
         ev_exists ev_using];
    (split; [reflexivity|]); (split; [reflexivity|]).
  all: rewrite ?elem_of_cons, ?elem_of_nil.
  all: (split; [|split]).
  all: try (intros e' [= <-] _; split; reflexivity).
  all: try (intros e' ? ?; discriminate).
  all: split; intros H; destruct_or?; destruct_and?; try discriminate;
    try done;
    try (by (symmetry in H; apply failed_line_not_success in H));
    try (by (symmetry in H; apply failed_line_not_using in H));
    try (exfalso; injection H; done);
    try (subst; reflexivity);
    try (repeat first [left; reflexivity | right]; fail).
Qed.

(** The hook writes nothing itself. After the step the disk is the one the
    invocation left; when the launch was refused nothing was executed and
    the disk is the one the step started on. The step's own operations are
    prints, the one subprocess call and the existence check of OutputFile:
    whatever is written, the child process writes. *)
Theorem initialize_no_direct_write self version build_data w :
  let s := (invocation self w).1 in
  let r := initialize self version build_data w in
  fs r.2 = fs (invocation self w).2
  ∧ (∀ e filename, s = SpawnError e filename → fs r.2 = fs w)
  ∧ (∀ ev, ev ∈ events self version build_data w →
       (∃ line, ev = EvPrint line) ∨ ev = ev_run self ∨ ev = ev_exists self).
Proof.
  intros s r. subst s r.
  pose proof (popen_error_fs "cython" cython_args (root self) w) as Hfs.
  fold (invocation self w) in Hfs.
  split; [apply initialize_disk|].
  split; [intros e filename Hs; rewrite initialize_disk; eauto|].
  hook_cases self w; intros ev Hev.
  all: repeat match goal with
         | H : _ ∈ _ :: _ |- _ => apply elem_of_cons in H as [->|H]
         | H : _ ∈ [] |- _ => by apply elem_of_nil in H
         end;
       unfold ev_compiling, ev_success, ev_failed, ev_checking, ev_using;
       eauto.
Qed.

(** A directory at the place of the generated file passes the fallback
    check like a file does. *)
Example scenario_directory_artifact :
  let w := world_of NotFound disk_directory_artifact in
  stat (fs w) (cwd w) (output_file hook) = inr Dir
  ∧ (initialize hook "standard" 0%nat w).1 = Ok tt.
Proof. by vm_compute. Qed.

(** A build root with an apostrophe in its name, and none on the disk: the
    failure line quotes the name in double quotes, as [repr] does. *)
Example scenario_root_with_apostrophe :
  printed {| root := "/no'where" |} "standard" 0%nat
    (world_of (Installed cython_works) disk_source_only) !! 1%nat
  = Some ("Cython compilation failed or Cython not found: "
          +:+ "[Errno 2] No such file or directory: "
          +:+ String Str.dquote ("/no'where" +:+ String Str.dquote EmptyString)).
Proof. by vm_compute. Qed.

(** A backslash in the name is doubled between single quotes. *)
Example scenario_root_with_backslash :
  let bs := String Str.backslash EmptyString in
  printed {| root := "/no" +:+ bs +:+ "where" |} "standard" 0%nat
    (world_of (Installed cython_works) disk_source_only) !! 1%nat
  = Some ("Cython compilation failed or Cython not found: "
          +:+ "[Errno 2] No such file or directory: "
          +:+ "'/no" +:+ bs +:+ bs +:+ "where'").
Proof. by vm_compute. Qed.
